(** * nvEncodeAPI stubs: a link-time stand-in for the NVENC encoder API

    [src/sys/stubs/nvEncodeAPI.c] defines one C function per entry point
    of the vendor header [nvEncodeAPI.h].  Every body is [{ return 0; }].

    The development embeds each function as a computation in a small
    monad over the caller's byte-addressed memory.  The monad can fault
    (a load or store through a null or unmapped pointer) and records the
    memory and synchronisation events a computation performs, so that
    "returns success", "writes nothing", "reads nothing" and "cannot
    fault" are separate, checkable statements about the embedded code. *)

From Stdlib Require Import ZArith Lia List.
From stdpp Require Import base gmap strings list.

Local Open Scope Z_scope.

(** ** Memory *)

(** An address is a machine integer; the null pointer is address zero. *)
Abbreviation addr := Z.
Definition NULL : addr := 0.

(** Memory maps each mapped address to the byte stored there. *)
Abbreviation mem := (gmap Z Z).

(** What a computation can be seen to do, besides returning. *)
Inductive event :=
  | EvRead (a : addr)
  | EvWrite (a : addr) (b : Z)
  | EvAcquire (l : addr)
  | EvRelease (l : addr)
  | EvBlock.

Definition is_write (e : event) : bool :=
  match e with EvWrite _ _ => true | _ => false end.

Definition is_read (e : event) : bool :=
  match e with EvRead _ => true | _ => false end.

Definition is_sync (e : event) : bool :=
  match e with EvAcquire _ | EvRelease _ | EvBlock => true | _ => false end.

(** ** The monad of C computations *)

Inductive outcome (A : Type) :=
  | Returns (v : A) (m : mem) (tr : list event)
  | Faults.
Arguments Returns {A} v m tr.
Arguments Faults {A}.

Definition C (A : Type) := mem -> outcome A.

Definition ret {A} (v : A) : C A := fun m => Returns v m [].

Definition bind {A B} (c : C A) (k : A -> C B) : C B :=
  fun m =>
    match c m with
    | Returns v m1 t1 =>
        match k v m1 with
        | Returns w m2 t2 => Returns w m2 (t1 ++ t2)
        | Faults => Faults
        end
    | Faults => Faults
    end.

Notation "'do' x <- c ; k" := (bind c (fun x => k))
  (at level 10, x name, c at level 100, k at level 200).

(** Byte accesses: dereferencing [NULL] or an unmapped address faults. *)
Definition load8 (a : addr) : C Z :=
  fun m =>
    if decide (a = NULL) then Faults
    else match m !! a with
         | Some b => Returns b m [EvRead a]
         | None => Faults
         end.

Definition store8 (a : addr) (b : Z) : C unit :=
  fun m =>
    if decide (a = NULL) then Faults
    else match m !! a with
         | Some _ => Returns tt (<[a := b mod 256]> m) [EvWrite a (b mod 256)]
         | None => Faults
         end.

(** A [uint32_t] object occupies four bytes, least significant first. *)
Definition load_u32 (a : addr) : C Z :=
  do b0 <- load8 a;
  do b1 <- load8 (a + 1);
  do b2 <- load8 (a + 2);
  do b3 <- load8 (a + 3);
  ret (b0 + 256 * (b1 + 256 * (b2 + 256 * b3))).

Definition store_u32 (a : addr) (v : Z) : C unit :=
  do _ <- store8 a v;
  do _ <- store8 (a + 1) (v / 256);
  do _ <- store8 (a + 2) (v / 65536);
  store8 (a + 3) (v / 16777216).

(** Projections of an outcome. *)
Definition status_of {A} (o : outcome A) : option A :=
  match o with Returns v _ _ => Some v | Faults => None end.

Definition memory_of {A} (o : outcome A) : option mem :=
  match o with Returns _ m _ => Some m | Faults => None end.

Definition trace_of {A} (o : outcome A) : option (list event) :=
  match o with Returns _ _ tr => Some tr | Faults => None end.

Definition faulted {A} (o : outcome A) : bool :=
  match o with Returns _ _ _ => false | Faults => true end.

(** ** C types of the interface *)

(** Names that [nvEncodeAPI.h] declares and the stub file mentions.  The
    header is not part of the sources; its types occur here only as
    parameter types. *)
Inductive hdr_name :=
  | GUID
  | NV_ENC_BUFFER_FORMAT
  | NV_ENC_CAPS_PARAM
  | NV_ENC_PRESET_CONFIG
  | NV_ENC_TUNING_INFO
  | NV_ENC_INITIALIZE_PARAMS
  | NV_ENC_CREATE_INPUT_BUFFER
  | NV_ENC_INPUT_PTR
  | NV_ENC_CUSTREAM_PTR
  | NV_ENC_CREATE_BITSTREAM_BUFFER
  | NV_ENC_OUTPUT_PTR
  | NV_ENC_PIC_PARAMS
  | NV_ENC_LOCK_BITSTREAM
  | NV_ENC_RESTORE_ENCODER_STATE_PARAMS
  | NV_ENC_LOCK_INPUT_BUFFER
  | NV_ENC_STAT
  | NV_ENC_SEQUENCE_PARAM_PAYLOAD
  | NV_ENC_EVENT_PARAMS
  | NV_ENC_MAP_INPUT_RESOURCE
  | NV_ENC_OPEN_ENCODE_SESSION_EX_PARAMS
  | NV_ENC_REGISTER_RESOURCE
  | NV_ENC_REGISTERED_PTR
  | NV_ENC_RECONFIGURE_PARAMS
  | NV_ENC_CREATE_MV_BUFFER
  | NV_ENC_MEONLY_PARAMS
  | NV_ENC_LOOKAHEAD_PIC_PARAMS
  | NV_ENCODE_API_FUNCTION_LIST.

Inductive ctype :=
  | void
  | int
  | uint32_t
  | uint64_t
  | Tnamed (n : hdr_name)
  | ptr (t : ctype).

Coercion Tnamed : hdr_name >-> ctype.

(** The status type is an enumeration of the header; the stubs return
    the integer literal [0] converted to it. *)
Definition NVENCSTATUS := Z.

(** ** The exported symbols *)

(** One constructor per function the file defines, in source order. *)
Inductive symbol :=
  | sym_NvEncOpenEncodeSession
  | sym_NvEncGetEncodeGUIDCount
  | sym_NvEncGetEncodeGUIDs
  | sym_NvEncGetEncodeProfileGUIDCount
  | sym_NvEncGetEncodeProfileGUIDs
  | sym_NvEncGetInputFormatCount
  | sym_NvEncGetInputFormats
  | sym_NvEncGetEncodeCaps
  | sym_NvEncGetEncodePresetCount
  | sym_NvEncGetEncodePresetGUIDs
  | sym_NvEncGetEncodePresetConfig
  | sym_NvEncGetEncodePresetConfigEx
  | sym_NvEncInitializeEncoder
  | sym_NvEncCreateInputBuffer
  | sym_NvEncDestroyInputBuffer
  | sym_NvEncSetIOCudaStreams
  | sym_NvEncCreateBitstreamBuffer
  | sym_NvEncDestroyBitstreamBuffer
  | sym_NvEncEncodePicture
  | sym_NvEncLockBitstream
  | sym_NvEncUnlockBitstream
  | sym_NvEncRestoreEncoderState
  | sym_NvEncLockInputBuffer
  | sym_NvEncUnlockInputBuffer
  | sym_NvEncGetEncodeStats
  | sym_NvEncGetSequenceParams
  | sym_NvEncGetSequenceParamEx
  | sym_NvEncRegisterAsyncEvent
  | sym_NvEncUnregisterAsyncEvent
  | sym_NvEncMapInputResource
  | sym_NvEncUnmapInputResource
  | sym_NvEncDestroyEncoder
  | sym_NvEncInvalidateRefFrames
  | sym_NvEncOpenEncodeSessionEx
  | sym_NvEncRegisterResource
  | sym_NvEncUnregisterResource
  | sym_NvEncReconfigureEncoder
  | sym_NvEncCreateMVBuffer
  | sym_NvEncDestroyMVBuffer
  | sym_NvEncRunMotionEstimationOnly
  | sym_NvEncodeAPIGetMaxSupportedVersion
  | sym_NvEncLookaheadPicture
  | sym_NvEncodeAPICreateInstance.

Definition symbol_name (f : symbol) : string :=
  match f with
  | sym_NvEncOpenEncodeSession => "NvEncOpenEncodeSession"
  | sym_NvEncGetEncodeGUIDCount => "NvEncGetEncodeGUIDCount"
  | sym_NvEncGetEncodeGUIDs => "NvEncGetEncodeGUIDs"
  | sym_NvEncGetEncodeProfileGUIDCount => "NvEncGetEncodeProfileGUIDCount"
  | sym_NvEncGetEncodeProfileGUIDs => "NvEncGetEncodeProfileGUIDs"
  | sym_NvEncGetInputFormatCount => "NvEncGetInputFormatCount"
  | sym_NvEncGetInputFormats => "NvEncGetInputFormats"
  | sym_NvEncGetEncodeCaps => "NvEncGetEncodeCaps"
  | sym_NvEncGetEncodePresetCount => "NvEncGetEncodePresetCount"
  | sym_NvEncGetEncodePresetGUIDs => "NvEncGetEncodePresetGUIDs"
  | sym_NvEncGetEncodePresetConfig => "NvEncGetEncodePresetConfig"
  | sym_NvEncGetEncodePresetConfigEx => "NvEncGetEncodePresetConfigEx"
  | sym_NvEncInitializeEncoder => "NvEncInitializeEncoder"
  | sym_NvEncCreateInputBuffer => "NvEncCreateInputBuffer"
  | sym_NvEncDestroyInputBuffer => "NvEncDestroyInputBuffer"
  | sym_NvEncSetIOCudaStreams => "NvEncSetIOCudaStreams"
  | sym_NvEncCreateBitstreamBuffer => "NvEncCreateBitstreamBuffer"
  | sym_NvEncDestroyBitstreamBuffer => "NvEncDestroyBitstreamBuffer"
  | sym_NvEncEncodePicture => "NvEncEncodePicture"
  | sym_NvEncLockBitstream => "NvEncLockBitstream"
  | sym_NvEncUnlockBitstream => "NvEncUnlockBitstream"
  | sym_NvEncRestoreEncoderState => "NvEncRestoreEncoderState"
  | sym_NvEncLockInputBuffer => "NvEncLockInputBuffer"
  | sym_NvEncUnlockInputBuffer => "NvEncUnlockInputBuffer"
  | sym_NvEncGetEncodeStats => "NvEncGetEncodeStats"
  | sym_NvEncGetSequenceParams => "NvEncGetSequenceParams"
  | sym_NvEncGetSequenceParamEx => "NvEncGetSequenceParamEx"
  | sym_NvEncRegisterAsyncEvent => "NvEncRegisterAsyncEvent"
  | sym_NvEncUnregisterAsyncEvent => "NvEncUnregisterAsyncEvent"
  | sym_NvEncMapInputResource => "NvEncMapInputResource"
  | sym_NvEncUnmapInputResource => "NvEncUnmapInputResource"
  | sym_NvEncDestroyEncoder => "NvEncDestroyEncoder"
  | sym_NvEncInvalidateRefFrames => "NvEncInvalidateRefFrames"
  | sym_NvEncOpenEncodeSessionEx => "NvEncOpenEncodeSessionEx"
  | sym_NvEncRegisterResource => "NvEncRegisterResource"
  | sym_NvEncUnregisterResource => "NvEncUnregisterResource"
  | sym_NvEncReconfigureEncoder => "NvEncReconfigureEncoder"
  | sym_NvEncCreateMVBuffer => "NvEncCreateMVBuffer"
  | sym_NvEncDestroyMVBuffer => "NvEncDestroyMVBuffer"
  | sym_NvEncRunMotionEstimationOnly => "NvEncRunMotionEstimationOnly"
  | sym_NvEncodeAPIGetMaxSupportedVersion => "NvEncodeAPIGetMaxSupportedVersion"
  | sym_NvEncLookaheadPicture => "NvEncLookaheadPicture"
  | sym_NvEncodeAPICreateInstance => "NvEncodeAPICreateInstance"
  end.

(** The parameter list of each function, types and order as declared. *)
Definition params (f : symbol) : list ctype :=
  match f with
  | sym_NvEncOpenEncodeSession =>
      [ptr void; uint32_t; ptr (ptr void)]
  | sym_NvEncGetEncodeGUIDCount =>
      [ptr void; ptr uint32_t]
  | sym_NvEncGetEncodeGUIDs =>
      [ptr void; ptr GUID; uint32_t; ptr uint32_t]
  | sym_NvEncGetEncodeProfileGUIDCount =>
      [ptr void; Tnamed GUID; ptr uint32_t]
  | sym_NvEncGetEncodeProfileGUIDs =>
      [ptr void; Tnamed GUID; ptr GUID; uint32_t; ptr uint32_t]
  | sym_NvEncGetInputFormatCount =>
      [ptr void; Tnamed GUID; ptr uint32_t]
  | sym_NvEncGetInputFormats =>
      [ptr void;
       Tnamed GUID;
       ptr NV_ENC_BUFFER_FORMAT;
       uint32_t;
       ptr uint32_t]
  | sym_NvEncGetEncodeCaps =>
      [ptr void; Tnamed GUID; ptr NV_ENC_CAPS_PARAM; ptr int]
  | sym_NvEncGetEncodePresetCount =>
      [ptr void; Tnamed GUID; ptr uint32_t]
  | sym_NvEncGetEncodePresetGUIDs =>
      [ptr void; Tnamed GUID; ptr GUID; uint32_t; ptr uint32_t]
  | sym_NvEncGetEncodePresetConfig =>
      [ptr void; Tnamed GUID; Tnamed GUID; ptr NV_ENC_PRESET_CONFIG]
  | sym_NvEncGetEncodePresetConfigEx =>
      [ptr void;
       Tnamed GUID;
       Tnamed GUID;
       Tnamed NV_ENC_TUNING_INFO;
       ptr NV_ENC_PRESET_CONFIG]
  | sym_NvEncInitializeEncoder =>
      [ptr void; ptr NV_ENC_INITIALIZE_PARAMS]
  | sym_NvEncCreateInputBuffer =>
      [ptr void; ptr NV_ENC_CREATE_INPUT_BUFFER]
  | sym_NvEncDestroyInputBuffer =>
      [ptr void; Tnamed NV_ENC_INPUT_PTR]
  | sym_NvEncSetIOCudaStreams =>
      [ptr void; Tnamed NV_ENC_CUSTREAM_PTR; Tnamed NV_ENC_CUSTREAM_PTR]
  | sym_NvEncCreateBitstreamBuffer =>
      [ptr void; ptr NV_ENC_CREATE_BITSTREAM_BUFFER]
  | sym_NvEncDestroyBitstreamBuffer =>
      [ptr void; Tnamed NV_ENC_OUTPUT_PTR]
  | sym_NvEncEncodePicture =>
      [ptr void; ptr NV_ENC_PIC_PARAMS]
  | sym_NvEncLockBitstream =>
      [ptr void; ptr NV_ENC_LOCK_BITSTREAM]
  | sym_NvEncUnlockBitstream =>
      [ptr void; Tnamed NV_ENC_OUTPUT_PTR]
  | sym_NvEncRestoreEncoderState =>
      [ptr void; ptr NV_ENC_RESTORE_ENCODER_STATE_PARAMS]
  | sym_NvEncLockInputBuffer =>
      [ptr void; ptr NV_ENC_LOCK_INPUT_BUFFER]
  | sym_NvEncUnlockInputBuffer =>
      [ptr void; Tnamed NV_ENC_INPUT_PTR]
  | sym_NvEncGetEncodeStats =>
      [ptr void; ptr NV_ENC_STAT]
  | sym_NvEncGetSequenceParams =>
      [ptr void; ptr NV_ENC_SEQUENCE_PARAM_PAYLOAD]
  | sym_NvEncGetSequenceParamEx =>
      [ptr void;
       ptr NV_ENC_INITIALIZE_PARAMS;
       ptr NV_ENC_SEQUENCE_PARAM_PAYLOAD]
  | sym_NvEncRegisterAsyncEvent =>
      [ptr void; ptr NV_ENC_EVENT_PARAMS]
  | sym_NvEncUnregisterAsyncEvent =>
      [ptr void; ptr NV_ENC_EVENT_PARAMS]
  | sym_NvEncMapInputResource =>
      [ptr void; ptr NV_ENC_MAP_INPUT_RESOURCE]
  | sym_NvEncUnmapInputResource =>
      [ptr void; Tnamed NV_ENC_INPUT_PTR]
  | sym_NvEncDestroyEncoder =>
      [ptr void]
  | sym_NvEncInvalidateRefFrames =>
      [ptr void; uint64_t]
  | sym_NvEncOpenEncodeSessionEx =>
      [ptr NV_ENC_OPEN_ENCODE_SESSION_EX_PARAMS; ptr (ptr void)]
  | sym_NvEncRegisterResource =>
      [ptr void; ptr NV_ENC_REGISTER_RESOURCE]
  | sym_NvEncUnregisterResource =>
      [ptr void; Tnamed NV_ENC_REGISTERED_PTR]
  | sym_NvEncReconfigureEncoder =>
      [ptr void; ptr NV_ENC_RECONFIGURE_PARAMS]
  | sym_NvEncCreateMVBuffer =>
      [ptr void; ptr NV_ENC_CREATE_MV_BUFFER]
  | sym_NvEncDestroyMVBuffer =>
      [ptr void; Tnamed NV_ENC_OUTPUT_PTR]
  | sym_NvEncRunMotionEstimationOnly =>
      [ptr void; ptr NV_ENC_MEONLY_PARAMS]
  | sym_NvEncodeAPIGetMaxSupportedVersion =>
      [ptr uint32_t]
  | sym_NvEncLookaheadPicture =>
      [ptr void; ptr NV_ENC_LOOKAHEAD_PIC_PARAMS]
  | sym_NvEncodeAPICreateInstance =>
      [ptr NV_ENCODE_API_FUNCTION_LIST]
  end.

(** Everything the object file exports. *)
Definition stub_surface : list symbol :=
  [sym_NvEncOpenEncodeSession; sym_NvEncGetEncodeGUIDCount;
   sym_NvEncGetEncodeGUIDs; sym_NvEncGetEncodeProfileGUIDCount;
   sym_NvEncGetEncodeProfileGUIDs; sym_NvEncGetInputFormatCount;
   sym_NvEncGetInputFormats; sym_NvEncGetEncodeCaps;
   sym_NvEncGetEncodePresetCount; sym_NvEncGetEncodePresetGUIDs;
   sym_NvEncGetEncodePresetConfig; sym_NvEncGetEncodePresetConfigEx;
   sym_NvEncInitializeEncoder; sym_NvEncCreateInputBuffer;
   sym_NvEncDestroyInputBuffer; sym_NvEncSetIOCudaStreams;
   sym_NvEncCreateBitstreamBuffer; sym_NvEncDestroyBitstreamBuffer;
   sym_NvEncEncodePicture; sym_NvEncLockBitstream; sym_NvEncUnlockBitstream;
   sym_NvEncRestoreEncoderState; sym_NvEncLockInputBuffer;
   sym_NvEncUnlockInputBuffer; sym_NvEncGetEncodeStats;
   sym_NvEncGetSequenceParams; sym_NvEncGetSequenceParamEx;
   sym_NvEncRegisterAsyncEvent; sym_NvEncUnregisterAsyncEvent;
   sym_NvEncMapInputResource; sym_NvEncUnmapInputResource;
   sym_NvEncDestroyEncoder; sym_NvEncInvalidateRefFrames;
   sym_NvEncOpenEncodeSessionEx; sym_NvEncRegisterResource;
   sym_NvEncUnregisterResource; sym_NvEncReconfigureEncoder;
   sym_NvEncCreateMVBuffer; sym_NvEncDestroyMVBuffer;
   sym_NvEncRunMotionEstimationOnly; sym_NvEncodeAPIGetMaxSupportedVersion;
   sym_NvEncLookaheadPicture; sym_NvEncodeAPICreateInstance].

(** ** The function bodies *)

Section Stubs.

(** How a value of a header-declared type is represented when passed by
    value is fixed by the header, hence a parameter here. *)
Variable byval : hdr_name -> Type.

Definition val (t : ctype) : Type :=
  match t with
  | void => unit
  | int | uint32_t | uint64_t => Z
  | Tnamed n => byval n
  | ptr _ => addr
  end.

Definition NvEncOpenEncodeSession
    (device : val (ptr void))
    (deviceType : val uint32_t)
    (encoder : val (ptr (ptr void)))
  : C NVENCSTATUS :=
  ret 0.

Definition NvEncGetEncodeGUIDCount
    (encoder : val (ptr void))
    (encodeGUIDCount : val (ptr uint32_t))
  : C NVENCSTATUS :=
  ret 0.

Definition NvEncGetEncodeGUIDs
    (encoder : val (ptr void))
    (GUIDs : val (ptr GUID))
    (guidArraySize : val uint32_t)
    (GUIDCount : val (ptr uint32_t))
  : C NVENCSTATUS :=
  ret 0.

Definition NvEncGetEncodeProfileGUIDCount
    (encoder : val (ptr void))
    (encodeGUID : val GUID)
    (encodeProfileGUIDCount : val (ptr uint32_t))
  : C NVENCSTATUS :=
  ret 0.

Definition NvEncGetEncodeProfileGUIDs
    (encoder : val (ptr void))
    (encodeGUID : val GUID)
    (profileGUIDs : val (ptr GUID))
    (guidArraySize : val uint32_t)
    (GUIDCount : val (ptr uint32_t))
  : C NVENCSTATUS :=
  ret 0.

Definition NvEncGetInputFormatCount
    (encoder : val (ptr void))
    (encodeGUID : val GUID)
    (inputFmtCount : val (ptr uint32_t))
  : C NVENCSTATUS :=
  ret 0.

Definition NvEncGetInputFormats
    (encoder : val (ptr void))
    (encodeGUID : val GUID)
    (inputFmts : val (ptr NV_ENC_BUFFER_FORMAT))
    (inputFmtArraySize : val uint32_t)
    (inputFmtCount : val (ptr uint32_t))
  : C NVENCSTATUS :=
  ret 0.

Definition NvEncGetEncodeCaps
    (encoder : val (ptr void))
    (encodeGUID : val GUID)
    (capsParam : val (ptr NV_ENC_CAPS_PARAM))
    (capsVal : val (ptr int))
  : C NVENCSTATUS :=
  ret 0.

Definition NvEncGetEncodePresetCount
    (encoder : val (ptr void))
    (encodeGUID : val GUID)
    (encodePresetGUIDCount : val (ptr uint32_t))
  : C NVENCSTATUS :=
  ret 0.

Definition NvEncGetEncodePresetGUIDs
    (encoder : val (ptr void))
    (encodeGUID : val GUID)
    (presetGUIDs : val (ptr GUID))
    (guidArraySize : val uint32_t)
    (encodePresetGUIDCount : val (ptr uint32_t))
  : C NVENCSTATUS :=
  ret 0.

Definition NvEncGetEncodePresetConfig
    (encoder : val (ptr void))
    (encodeGUID : val GUID)
    (presetGUID : val GUID)
    (presetConfig : val (ptr NV_ENC_PRESET_CONFIG))
  : C NVENCSTATUS :=
  ret 0.

Definition NvEncGetEncodePresetConfigEx
    (encoder : val (ptr void))
    (encodeGUID : val GUID)
    (presetGUID : val GUID)
    (tuningInfo : val NV_ENC_TUNING_INFO)
    (presetConfig : val (ptr NV_ENC_PRESET_CONFIG))
  : C NVENCSTATUS :=
  ret 0.

Definition NvEncInitializeEncoder
    (encoder : val (ptr void))
    (createEncodeParams : val (ptr NV_ENC_INITIALIZE_PARAMS))
  : C NVENCSTATUS :=
  ret 0.

Definition NvEncCreateInputBuffer
    (encoder : val (ptr void))
    (createInputBufferParams : val (ptr NV_ENC_CREATE_INPUT_BUFFER))
  : C NVENCSTATUS :=
  ret 0.

Definition NvEncDestroyInputBuffer
    (encoder : val (ptr void))
    (inputBuffer : val NV_ENC_INPUT_PTR)
  : C NVENCSTATUS :=
  ret 0.

Definition NvEncSetIOCudaStreams
    (encoder : val (ptr void))
    (inputStream : val NV_ENC_CUSTREAM_PTR)
    (outputStream : val NV_ENC_CUSTREAM_PTR)
  : C NVENCSTATUS :=
  ret 0.

Definition NvEncCreateBitstreamBuffer
    (encoder : val (ptr void))
    (createBitstreamBufferParams : val (ptr NV_ENC_CREATE_BITSTREAM_BUFFER))
  : C NVENCSTATUS :=
  ret 0.

Definition NvEncDestroyBitstreamBuffer
    (encoder : val (ptr void))
    (bitstreamBuffer : val NV_ENC_OUTPUT_PTR)
  : C NVENCSTATUS :=
  ret 0.

Definition NvEncEncodePicture
    (encoder : val (ptr void))
    (encodePicParams : val (ptr NV_ENC_PIC_PARAMS))
  : C NVENCSTATUS :=
  ret 0.

Definition NvEncLockBitstream
    (encoder : val (ptr void))
    (lockBitstreamBufferParams : val (ptr NV_ENC_LOCK_BITSTREAM))
  : C NVENCSTATUS :=
  ret 0.

Definition NvEncUnlockBitstream
    (encoder : val (ptr void))
    (bitstreamBuffer : val NV_ENC_OUTPUT_PTR)
  : C NVENCSTATUS :=
  ret 0.

Definition NvEncRestoreEncoderState
    (encoder : val (ptr void))
    (restoreState : val (ptr NV_ENC_RESTORE_ENCODER_STATE_PARAMS))
  : C NVENCSTATUS :=
  ret 0.

Definition NvEncLockInputBuffer
    (encoder : val (ptr void))
    (lockInputBufferParams : val (ptr NV_ENC_LOCK_INPUT_BUFFER))
  : C NVENCSTATUS :=
  ret 0.

Definition NvEncUnlockInputBuffer
    (encoder : val (ptr void))
    (inputBuffer : val NV_ENC_INPUT_PTR)
  : C NVENCSTATUS :=
  ret 0.

Definition NvEncGetEncodeStats
    (encoder : val (ptr void))
    (encodeStats : val (ptr NV_ENC_STAT))
  : C NVENCSTATUS :=
  ret 0.

Definition NvEncGetSequenceParams
    (encoder : val (ptr void))
    (sequenceParamPayload : val (ptr NV_ENC_SEQUENCE_PARAM_PAYLOAD))
  : C NVENCSTATUS :=
  ret 0.

Definition NvEncGetSequenceParamEx
    (encoder : val (ptr void))
    (encInitParams : val (ptr NV_ENC_INITIALIZE_PARAMS))
    (sequenceParamPayload : val (ptr NV_ENC_SEQUENCE_PARAM_PAYLOAD))
  : C NVENCSTATUS :=
  ret 0.

Definition NvEncRegisterAsyncEvent
    (encoder : val (ptr void))
    (eventParams : val (ptr NV_ENC_EVENT_PARAMS))
  : C NVENCSTATUS :=
  ret 0.

Definition NvEncUnregisterAsyncEvent
    (encoder : val (ptr void))
    (eventParams : val (ptr NV_ENC_EVENT_PARAMS))
  : C NVENCSTATUS :=
  ret 0.

Definition NvEncMapInputResource
    (encoder : val (ptr void))
    (mapInputResParams : val (ptr NV_ENC_MAP_INPUT_RESOURCE))
  : C NVENCSTATUS :=
  ret 0.

Definition NvEncUnmapInputResource
    (encoder : val (ptr void))
    (mappedInputBuffer : val NV_ENC_INPUT_PTR)
  : C NVENCSTATUS :=
  ret 0.

Definition NvEncDestroyEncoder
    (encoder : val (ptr void))
  : C NVENCSTATUS :=
  ret 0.

Definition NvEncInvalidateRefFrames
    (encoder : val (ptr void))
    (invalidRefFrameTimeStamp : val uint64_t)
  : C NVENCSTATUS :=
  ret 0.

Definition NvEncOpenEncodeSessionEx
    (openSessionExParams : val (ptr NV_ENC_OPEN_ENCODE_SESSION_EX_PARAMS))
    (encoder : val (ptr (ptr void)))
  : C NVENCSTATUS :=
  ret 0.

Definition NvEncRegisterResource
    (encoder : val (ptr void))
    (registerResParams : val (ptr NV_ENC_REGISTER_RESOURCE))
  : C NVENCSTATUS :=
  ret 0.

Definition NvEncUnregisterResource
    (encoder : val (ptr void))
    (registeredResource : val NV_ENC_REGISTERED_PTR)
  : C NVENCSTATUS :=
  ret 0.

Definition NvEncReconfigureEncoder
    (encoder : val (ptr void))
    (reInitEncodeParams : val (ptr NV_ENC_RECONFIGURE_PARAMS))
  : C NVENCSTATUS :=
  ret 0.

Definition NvEncCreateMVBuffer
    (encoder : val (ptr void))
    (createMVBufferParams : val (ptr NV_ENC_CREATE_MV_BUFFER))
  : C NVENCSTATUS :=
  ret 0.

Definition NvEncDestroyMVBuffer
    (encoder : val (ptr void))
    (mvBuffer : val NV_ENC_OUTPUT_PTR)
  : C NVENCSTATUS :=
  ret 0.

Definition NvEncRunMotionEstimationOnly
    (encoder : val (ptr void))
    (meOnlyParams : val (ptr NV_ENC_MEONLY_PARAMS))
  : C NVENCSTATUS :=
  ret 0.

Definition NvEncodeAPIGetMaxSupportedVersion
    (version : val (ptr uint32_t))
  : C NVENCSTATUS :=
  ret 0.

Definition NvEncLookaheadPicture
    (encoder : val (ptr void))
    (lookaheadParamas : val (ptr NV_ENC_LOOKAHEAD_PIC_PARAMS))
  : C NVENCSTATUS :=
  ret 0.

Definition NvEncodeAPICreateInstance
    (functionList : val (ptr NV_ENCODE_API_FUNCTION_LIST))
  : C NVENCSTATUS :=
  ret 0.

(** *** Uniform calls *)

Fixpoint arrow (ts : list ctype) (R : Type) : Type :=
  match ts with
  | [] => R
  | t :: ts' => val t -> arrow ts' R
  end.

Fixpoint tuple (ts : list ctype) : Type :=
  match ts with
  | [] => unit
  | t :: ts' => (val t * tuple ts')%type
  end.

Fixpoint uncurry (ts : list ctype) (R : Type) : arrow ts R -> tuple ts -> R :=
  match ts with
  | [] => fun g _ => g
  | t :: ts' => fun g a => uncurry ts' R (g (fst a)) (snd a)
  end.

(** The definition behind each symbol; the match type-checks every
    function against its row of [params]. *)
Definition impl (f : symbol) : arrow (params f) (C NVENCSTATUS) :=
  match f with
  | sym_NvEncOpenEncodeSession => NvEncOpenEncodeSession
  | sym_NvEncGetEncodeGUIDCount => NvEncGetEncodeGUIDCount
  | sym_NvEncGetEncodeGUIDs => NvEncGetEncodeGUIDs
  | sym_NvEncGetEncodeProfileGUIDCount => NvEncGetEncodeProfileGUIDCount
  | sym_NvEncGetEncodeProfileGUIDs => NvEncGetEncodeProfileGUIDs
  | sym_NvEncGetInputFormatCount => NvEncGetInputFormatCount
  | sym_NvEncGetInputFormats => NvEncGetInputFormats
  | sym_NvEncGetEncodeCaps => NvEncGetEncodeCaps
  | sym_NvEncGetEncodePresetCount => NvEncGetEncodePresetCount
  | sym_NvEncGetEncodePresetGUIDs => NvEncGetEncodePresetGUIDs
  | sym_NvEncGetEncodePresetConfig => NvEncGetEncodePresetConfig
  | sym_NvEncGetEncodePresetConfigEx => NvEncGetEncodePresetConfigEx
  | sym_NvEncInitializeEncoder => NvEncInitializeEncoder
  | sym_NvEncCreateInputBuffer => NvEncCreateInputBuffer
  | sym_NvEncDestroyInputBuffer => NvEncDestroyInputBuffer
  | sym_NvEncSetIOCudaStreams => NvEncSetIOCudaStreams
  | sym_NvEncCreateBitstreamBuffer => NvEncCreateBitstreamBuffer
  | sym_NvEncDestroyBitstreamBuffer => NvEncDestroyBitstreamBuffer
  | sym_NvEncEncodePicture => NvEncEncodePicture
  | sym_NvEncLockBitstream => NvEncLockBitstream
  | sym_NvEncUnlockBitstream => NvEncUnlockBitstream
  | sym_NvEncRestoreEncoderState => NvEncRestoreEncoderState
  | sym_NvEncLockInputBuffer => NvEncLockInputBuffer
  | sym_NvEncUnlockInputBuffer => NvEncUnlockInputBuffer
  | sym_NvEncGetEncodeStats => NvEncGetEncodeStats
  | sym_NvEncGetSequenceParams => NvEncGetSequenceParams
  | sym_NvEncGetSequenceParamEx => NvEncGetSequenceParamEx
  | sym_NvEncRegisterAsyncEvent => NvEncRegisterAsyncEvent
  | sym_NvEncUnregisterAsyncEvent => NvEncUnregisterAsyncEvent
  | sym_NvEncMapInputResource => NvEncMapInputResource
  | sym_NvEncUnmapInputResource => NvEncUnmapInputResource
  | sym_NvEncDestroyEncoder => NvEncDestroyEncoder
  | sym_NvEncInvalidateRefFrames => NvEncInvalidateRefFrames
  | sym_NvEncOpenEncodeSessionEx => NvEncOpenEncodeSessionEx
  | sym_NvEncRegisterResource => NvEncRegisterResource
  | sym_NvEncUnregisterResource => NvEncUnregisterResource
  | sym_NvEncReconfigureEncoder => NvEncReconfigureEncoder
  | sym_NvEncCreateMVBuffer => NvEncCreateMVBuffer
  | sym_NvEncDestroyMVBuffer => NvEncDestroyMVBuffer
  | sym_NvEncRunMotionEstimationOnly => NvEncRunMotionEstimationOnly
  | sym_NvEncodeAPIGetMaxSupportedVersion => NvEncodeAPIGetMaxSupportedVersion
  | sym_NvEncLookaheadPicture => NvEncLookaheadPicture
  | sym_NvEncodeAPICreateInstance => NvEncodeAPICreateInstance
  end.

Definition args (f : symbol) : Type := tuple (params f).

Definition call (f : symbol) (a : args f) : C NVENCSTATUS :=
  uncurry (params f) (C NVENCSTATUS) (impl f) a.

(** The addresses passed in pointer-typed parameters, in order. *)
Fixpoint pointer_args (ts : list ctype) : tuple ts -> list addr :=
  match ts with
  | [] => fun _ => []
  | t :: ts' =>
      fun a =>
        match t return val t -> list addr with
        | ptr _ => fun p => [p]
        | _ => fun _ => []
        end (fst a) ++ pointer_args ts' (snd a)
  end.

(** *** Sequences of calls *)

(** A call site: which function, with which arguments. *)
Definition invocation : Type := { f : symbol & args f }.

Definition invoke (c : invocation) : C NVENCSTATUS :=
  call (projT1 c) (projT2 c).

(** A client that performs the calls one after the other and collects
    the statuses. *)
Fixpoint run_calls (cs : list invocation) : C (list NVENCSTATUS) :=
  match cs with
  | [] => ret []
  | c :: cs' =>
      do st <- invoke c;
      do sts <- run_calls cs';
      ret (st :: sts)
  end.

(** *** Several callers on one memory *)

(** Each thread is the list of calls it still has to make.  A schedule
    names, tick by tick, the thread that runs its next call; a tick for
    a thread that has finished (or does not exist) is lost.  The log
    records who called what and the status received. *)
Fixpoint run_threads (sched : list nat) (ts : list (list invocation))
  : C (list (nat * invocation * NVENCSTATUS)) :=
  match sched with
  | [] => ret []
  | i :: sched' =>
      match ts !! i with
      | Some (c :: rest) =>
          do st <- invoke c;
          do log <- run_threads sched' (<[i := rest]> ts);
          ret ((i, c, st) :: log)
      | _ => run_threads sched' ts
      end
  end.

(** *** A client of the GUID-count query *)

(** The caller initialises a count, passes its address together with a
    null encoder handle, and reads the count back. *)
Definition client_GUIDCount (count : addr) (v : Z) : C (NVENCSTATUS * Z) :=
  do _ <- store_u32 count v;
  do st <- NvEncGetEncodeGUIDCount NULL count;
  do x <- load_u32 count;
  ret (st, x).

End Stubs.

Arguments call {byval} f a m.
Arguments invoke {byval} c m.
Arguments run_calls {byval} cs m.
Arguments run_threads {byval} sched ts m.
Arguments pointer_args {byval} ts a.

(** A pointer is valid for a [uint32_t] access when a load through it
    does not fault. *)
Definition valid_u32 (m : mem) (p : addr) : bool :=
  negb (faulted (load_u32 p m)).

(** ** The interface enumeration *)

(** Substring test on symbol names. *)
Fixpoint contains (needle hay : string) : bool :=
  if String.prefix needle hay then true
  else match hay with
       | EmptyString => false
       | String _ rest => contains needle rest
       end.

(** The entry points the specification enumerates for the interface. *)
Inductive api_entry :=
  | E_session_open
  | E_session_open_ex
  | E_encode_guid_enumeration
  | E_profile_guid_enumeration
  | E_input_format_enumeration
  | E_capability_query
  | E_preset_enumeration
  | E_preset_config
  | E_preset_config_ex
  | E_encoder_initialization
  | E_encoder_reconfiguration
  | E_input_buffer_create
  | E_input_buffer_destroy
  | E_bitstream_buffer_create
  | E_bitstream_buffer_destroy
  | E_mv_buffer_create
  | E_mv_buffer_destroy
  | E_resource_register
  | E_resource_unregister
  | E_input_resource_map
  | E_input_resource_unmap
  | E_picture_encoding
  | E_bitstream_lock
  | E_bitstream_unlock
  | E_input_buffer_lock
  | E_input_buffer_unlock
  | E_sequence_params
  | E_sequence_params_ex
  | E_async_event_register
  | E_async_event_unregister
  | E_encoder_state_save
  | E_encoder_state_restore
  | E_statistics
  | E_ref_frame_invalidation
  | E_motion_estimation_only
  | E_lookahead_picture
  | E_max_supported_version
  | E_encoder_destruction
  | E_function_list_factory.

Definition all_entries : list api_entry :=
  [E_session_open; E_session_open_ex; E_encode_guid_enumeration;
   E_profile_guid_enumeration; E_input_format_enumeration;
   E_capability_query; E_preset_enumeration; E_preset_config;
   E_preset_config_ex; E_encoder_initialization;
   E_encoder_reconfiguration; E_input_buffer_create;
   E_input_buffer_destroy; E_bitstream_buffer_create;
   E_bitstream_buffer_destroy; E_mv_buffer_create; E_mv_buffer_destroy;
   E_resource_register; E_resource_unregister; E_input_resource_map;
   E_input_resource_unmap; E_picture_encoding; E_bitstream_lock;
   E_bitstream_unlock; E_input_buffer_lock; E_input_buffer_unlock;
   E_sequence_params; E_sequence_params_ex; E_async_event_register;
   E_async_event_unregister; E_encoder_state_save;
   E_encoder_state_restore; E_statistics; E_ref_frame_invalidation;
   E_motion_estimation_only; E_lookahead_picture;
   E_max_supported_version; E_encoder_destruction;
   E_function_list_factory].

(** The words, in the vendor's naming, that the name of a function for
    an entry carries: a list of alternatives, each a list of words that
    must all occur. *)
Definition entry_words (e : api_entry) : list (list string) :=
  match e with
  | E_session_open => [["OpenEncodeSession"]]
  | E_session_open_ex => [["OpenEncodeSession"; "Ex"]]
  | E_encode_guid_enumeration => [["EncodeGUID"]]
  | E_profile_guid_enumeration => [["ProfileGUID"]]
  | E_input_format_enumeration => [["InputFormat"]]
  | E_capability_query => [["Caps"]]
  | E_preset_enumeration => [["PresetCount"]; ["PresetGUIDs"]]
  | E_preset_config => [["PresetConfig"]]
  | E_preset_config_ex => [["PresetConfig"; "Ex"]]
  | E_encoder_initialization => [["InitializeEncoder"]]
  | E_encoder_reconfiguration => [["ReconfigureEncoder"]]
  | E_input_buffer_create => [["Create"; "InputBuffer"]]
  | E_input_buffer_destroy => [["Destroy"; "InputBuffer"]]
  | E_bitstream_buffer_create => [["Create"; "BitstreamBuffer"]]
  | E_bitstream_buffer_destroy => [["Destroy"; "BitstreamBuffer"]]
  | E_mv_buffer_create => [["Create"; "MVBuffer"]]
  | E_mv_buffer_destroy => [["Destroy"; "MVBuffer"]]
  | E_resource_register => [["RegisterResource"]]
  | E_resource_unregister => [["UnregisterResource"]]
  | E_input_resource_map => [["MapInputResource"]]
  | E_input_resource_unmap => [["UnmapInputResource"]]
  | E_picture_encoding => [["EncodePicture"]]
  | E_bitstream_lock => [["LockBitstream"]]
  | E_bitstream_unlock => [["UnlockBitstream"]]
  | E_input_buffer_lock => [["LockInputBuffer"]]
  | E_input_buffer_unlock => [["UnlockInputBuffer"]]
  | E_sequence_params => [["SequenceParam"]]
  | E_sequence_params_ex => [["SequenceParam"; "Ex"]]
  | E_async_event_register => [["RegisterAsyncEvent"]]
  | E_async_event_unregister => [["UnregisterAsyncEvent"]]
  | E_encoder_state_save => [["Save"; "EncoderState"]]
  | E_encoder_state_restore => [["Restore"; "EncoderState"]]
  | E_statistics => [["EncodeStats"]]
  | E_ref_frame_invalidation => [["InvalidateRefFrames"]]
  | E_motion_estimation_only => [["MotionEstimationOnly"]]
  | E_lookahead_picture => [["LookaheadPicture"]]
  | E_max_supported_version => [["MaxSupportedVersion"]]
  | E_encoder_destruction => [["DestroyEncoder"]]
  | E_function_list_factory => [["CreateInstance"]]
  end.

(** A symbol serves an entry when its name carries all the words of one
    of the entry's alternatives. *)
Definition provides (f : symbol) (e : api_entry) : bool :=
  existsb (forallb (fun w => contains w (symbol_name f))) (entry_words e).

(** The symbols of the surface that serve an entry. *)
Definition providers (e : api_entry) : list symbol :=
  filter (fun f => provides f e = true) stub_surface.


(** Whether the surface holds a function for an entry that reports
    success on every input. *)
Definition entry_served (e : api_entry) : Prop :=
  exists f : symbol,
    In f stub_surface /\ provides f e = true /\
    forall (byval : hdr_name -> Type) (a : args byval f) (m : mem),
      status_of (call f a m) = Some 0.

(** ** The enumeration, name by name *)

(** The exported names an entry stands for, in full: an enumeration
    entry stands for the count query and the list query, every other
    entry for one function. *)
Definition entry_names (e : api_entry) : list string :=
  match e with
  | E_session_open => ["NvEncOpenEncodeSession"]
  | E_session_open_ex => ["NvEncOpenEncodeSessionEx"]
  | E_encode_guid_enumeration =>
      ["NvEncGetEncodeGUIDCount"; "NvEncGetEncodeGUIDs"]
  | E_profile_guid_enumeration =>
      ["NvEncGetEncodeProfileGUIDCount"; "NvEncGetEncodeProfileGUIDs"]
  | E_input_format_enumeration =>
      ["NvEncGetInputFormatCount"; "NvEncGetInputFormats"]
  | E_capability_query => ["NvEncGetEncodeCaps"]
  | E_preset_enumeration =>
      ["NvEncGetEncodePresetCount"; "NvEncGetEncodePresetGUIDs"]
  | E_preset_config => ["NvEncGetEncodePresetConfig"]
  | E_preset_config_ex => ["NvEncGetEncodePresetConfigEx"]
  | E_encoder_initialization => ["NvEncInitializeEncoder"]
  | E_encoder_reconfiguration => ["NvEncReconfigureEncoder"]
  | E_input_buffer_create => ["NvEncCreateInputBuffer"]
  | E_input_buffer_destroy => ["NvEncDestroyInputBuffer"]
  | E_bitstream_buffer_create => ["NvEncCreateBitstreamBuffer"]
  | E_bitstream_buffer_destroy => ["NvEncDestroyBitstreamBuffer"]
  | E_mv_buffer_create => ["NvEncCreateMVBuffer"]
  | E_mv_buffer_destroy => ["NvEncDestroyMVBuffer"]
  | E_resource_register => ["NvEncRegisterResource"]
  | E_resource_unregister => ["NvEncUnregisterResource"]
  | E_input_resource_map => ["NvEncMapInputResource"]
  | E_input_resource_unmap => ["NvEncUnmapInputResource"]
  | E_picture_encoding => ["NvEncEncodePicture"]
  | E_bitstream_lock => ["NvEncLockBitstream"]
  | E_bitstream_unlock => ["NvEncUnlockBitstream"]
  | E_input_buffer_lock => ["NvEncLockInputBuffer"]
  | E_input_buffer_unlock => ["NvEncUnlockInputBuffer"]
  | E_sequence_params => ["NvEncGetSequenceParams"]
  | E_sequence_params_ex => ["NvEncGetSequenceParamEx"]
  | E_async_event_register => ["NvEncRegisterAsyncEvent"]
  | E_async_event_unregister => ["NvEncUnregisterAsyncEvent"]
  | E_encoder_state_save => ["NvEncSaveEncoderState"]
  | E_encoder_state_restore => ["NvEncRestoreEncoderState"]
  | E_statistics => ["NvEncGetEncodeStats"]
  | E_ref_frame_invalidation => ["NvEncInvalidateRefFrames"]
  | E_motion_estimation_only => ["NvEncRunMotionEstimationOnly"]
  | E_lookahead_picture => ["NvEncLookaheadPicture"]
  | E_max_supported_version => ["NvEncodeAPIGetMaxSupportedVersion"]
  | E_encoder_destruction => ["NvEncDestroyEncoder"]
  | E_function_list_factory => ["NvEncodeAPICreateInstance"]
  end.

(** The surface links a name when it holds a function exported under
    exactly that name which reports success on every input. *)
Definition name_linked (name : string) : Prop :=
  exists f : symbol,
    In f stub_surface /\ symbol_name f = name /\
    forall (byval : hdr_name -> Type) (a : args byval f) (m : mem),
      status_of (call f a m) = Some 0.

(** An entry is served in full when it names at least one function and
    the surface links every name it stands for. *)
Definition entry_served_in_full (e : api_entry) : Prop :=
  entry_names e <> [] /\ Forall name_linked (entry_names e).

(** The executable side of [name_linked]: the symbols of the surface
    exported under a name. *)
Definition exported_as (name : string) : list symbol :=
  filter (fun f => String.eqb (symbol_name f) name = true) stub_surface.

Definition is_state_save (e : api_entry) : bool :=
  match e with E_encoder_state_save => true | _ => false end.

(** The names the enumeration asks for, the save entry left out. *)
Definition names_asked : list string :=
  concat (map entry_names
              (filter (fun e => is_state_save e = false) all_entries)).

(** ** Clients and signatures, in general *)

(** A caller that keeps a [uint32_t] object at [p] (a count, a version),
    initialises it, makes one call to the surface, and reads the object
    back.  The pointer may or may not be among the arguments. *)
Definition client_u32 {byval : hdr_name -> Type}
    (f : symbol) (a : args byval f) (p : addr) (v : Z)
  : C (NVENCSTATUS * Z) :=
  do _ <- store_u32 p v;
  do st <- call f a;
  do x <- load_u32 p;
  ret (st, x).


(** Whether a parameter type is a pointer. *)
Definition is_pointer (t : ctype) : bool :=
  match t with ptr _ => true | _ => false end.

(** ** Sample inputs *)

(** A by-value representation of the header's types: the bytes of the
    object. *)
Definition byval_bytes : hdr_name -> Type := fun _ => list Z.

(** A memory with one [uint32_t] object mapped at address 4096. *)
Definition sample_mem : mem :=
  <[4096 := 0]> (<[4097 := 0]> (<[4098 := 0]> (<[4099 := 0]> ∅))).

(** * Properties *)

(** ** The monad *)

Lemma bind_returns {A B} (c : C A) (k : A -> C B) m v m1 t1 :
  c m = Returns v m1 t1 ->
  bind c k m =
    match k v m1 with
    | Returns w m2 t2 => Returns w m2 (t1 ++ t2)
    | Faults => Faults
    end.
Proof. intros H. unfold bind. now rewrite H. Qed.

Lemma bind_silent {A B} (c : C A) (k : A -> C B) m v :
  c m = Returns v m [] -> bind c k m = k v m.
Proof.
  intros H. rewrite (bind_returns _ _ _ _ _ _ H).
  now destruct (k v m).
Qed.

(** ** The surface *)

Lemma surface_complete (f : symbol) : In f stub_surface.
Proof. destruct f; vm_compute; tauto. Qed.

Lemma surface_size : length stub_surface = 43%nat.
Proof. reflexivity. Qed.

Lemma surface_names_distinct : NoDup (map symbol_name stub_surface).
Proof. refine (bool_decide_unpack _ _). vm_compute. exact I. Qed.

Section Properties.

Context (byval : hdr_name -> Type).

(** ** One call *)

(** Every body is [return 0;]: the call returns zero, hands the memory
    back as it received it, and performs no event. *)
Lemma call_spec (f : symbol) (a : args byval f) (m : mem) :
  call f a m = Returns 0 m [].
Proof. destruct f; reflexivity. Qed.

Lemma invoke_spec (c : invocation byval) (m : mem) :
  invoke c m = Returns 0 m [].
Proof. destruct c as [f a]. apply call_spec. Qed.

(** ** Many calls *)

Lemma run_calls_spec (cs : list (invocation byval)) (m : mem) :
  run_calls cs m = Returns (map (fun _ => 0) cs) m [].
Proof.
  induction cs as [|c cs IH]; simpl; [reflexivity|].
  rewrite (bind_silent _ _ _ _ (invoke_spec c m)).
  rewrite (bind_silent _ _ _ _ IH). reflexivity.
Qed.

Lemma run_threads_spec (sched : list nat) :
  forall (ts : list (list (invocation byval))) (m : mem),
  exists log,
    run_threads sched ts m = Returns log m [] /\
    Forall (fun e => invoke (snd (fst e)) m = Returns (snd e) m []) log.
Proof.
  induction sched as [|i sched IH]; intros ts m; simpl.
  - exists []. split; [reflexivity | constructor].
  - destruct (ts !! i) as [[|c rest]|]; try apply IH.
    destruct (IH (<[i := rest]> ts) m) as (log & Hrun & Hlog).
    exists ((i, c, 0) :: log). split.
    + rewrite (bind_silent _ _ _ _ (invoke_spec c m)).
      rewrite (bind_silent _ _ _ _ Hrun). reflexivity.
    + constructor; [apply invoke_spec | exact Hlog].
Qed.

(** Concrete calls: null handles and pointers, nothing mapped. *)
Example open_session_all_null :
  NvEncOpenEncodeSession byval NULL 0 NULL ∅ = Returns 0 ∅ [].
Proof. reflexivity. Qed.

Example max_version_null :
  call (byval := byval) sym_NvEncodeAPIGetMaxSupportedVersion (NULL, tt) ∅
    = Returns 0 ∅ [].
Proof. reflexivity. Qed.

Example destroy_twice (h : addr) (m : mem) :
  run_calls (byval := byval)
            [existT sym_NvEncDestroyEncoder (h, tt);
             existT sym_NvEncDestroyEncoder (h, tt)] m
    = Returns [0; 0] m [].
Proof. reflexivity. Qed.

(** ** Return value *)

(** C1.  Every function of the surface, on every argument tuple and in
    every memory (null and dangling pointers included, nothing need be
    mapped), returns the status 0; no call faults and none returns any
    other status. *)
Theorem every_stub_returns_success (f : symbol) (a : args byval f) (m : mem) :
  In f stub_surface /\
  status_of (call f a m) = Some 0 /\
  faulted (call f a m) = false.
Proof.
  rewrite call_spec. split; [apply surface_complete|]. split; reflexivity.
Qed.

(** ** Frame *)

(** C2.  No function writes through any of its parameters: the call
    performs no write event, every byte at every offset from every
    pointer argument holds after the call what it held before, and the
    memory as a whole is the one the caller passed in. *)
Theorem no_output_parameter_written (f : symbol) (a : args byval f) (m : mem) :
  exists st m' tr,
    call f a m = Returns st m' tr /\
    existsb is_write tr = false /\
    Forall (fun p : addr => forall o : Z, m' !! (p + o) = m !! (p + o))
           (pointer_args (params f) a) /\
    m' = m.
Proof.
  exists 0, m, []. rewrite call_spec. repeat split.
  apply Forall_forall. intros p _ o. reflexivity.
Qed.

(** ** Totality and independence of the arguments *)

(** C3.  Every call is total: in every memory and on every argument
    tuple it returns without a fault, performs no event at all (so it
    neither reads nor dereferences anything), and the status does not
    depend on the arguments or on the memory: any other arguments in any
    other memory give the same status, which is 0. *)
Theorem calls_total_and_argument_blind
    (f : symbol) (a a' : args byval f) (m m' : mem) :
  faulted (call f a m) = false /\
  trace_of (call f a m) = Some [] /\
  (exists tr, trace_of (call f a m) = Some tr /\ existsb is_read tr = false) /\
  status_of (call f a m) = status_of (call f a' m') /\
  status_of (call f a m) = Some 0.
Proof.
  rewrite !call_spec. repeat split. exists []. split; reflexivity.
Qed.

(** ** Statelessness *)

(** C4.  Calls are stateless and independent of order and repetition.
    After any history [cs] a call behaves exactly as it does alone on
    the initial memory (same status, same memory, same events); a
    sequence returns, call by call, what each call returns alone; and
    running two sequences in either order gives each call the same
    status and leaves the same memory. *)
Theorem calls_stateless_order_independent
    (cs cs' : list (invocation byval)) (c : invocation byval) (m : mem) :
  bind (run_calls cs) (fun _ => invoke c) m = invoke c m /\
  bind (invoke c) (fun _ => invoke c) m = invoke c m /\
  (exists sts sts',
     run_calls cs m = Returns sts m [] /\
     run_calls cs' m = Returns sts' m [] /\
     Forall2 (fun c st => invoke c m = Returns st m []) cs sts /\
     run_calls (cs ++ cs') m = Returns (sts ++ sts') m [] /\
     run_calls (cs' ++ cs) m = Returns (sts' ++ sts) m []).
Proof.
  split; [|split].
  - apply (bind_silent _ (fun _ => invoke c) _ _ (run_calls_spec cs m)).
  - apply (bind_silent _ (fun _ => invoke c) _ _ (invoke_spec c m)).
  - exists (map (fun _ => 0) cs), (map (fun _ => 0) cs').
    rewrite !run_calls_spec, !map_app. repeat split.
    induction cs as [|c0 cs0 IH]; simpl; constructor;
      [apply invoke_spec | exact IH].
Qed.

(** ** Destroying an encoder *)

(** C7.  [NvEncDestroyEncoder] accepts any handle value, after any
    history of calls to the surface (none of which creates anything):
    it returns 0, does not fault, and performs no access. *)
Theorem destroy_encoder_any_handle
    (cs : list (invocation byval)) (encoder : addr) (m : mem) :
  NvEncDestroyEncoder byval encoder m = Returns 0 m [] /\
  bind (run_calls cs) (fun _ => NvEncDestroyEncoder byval encoder) m
    = Returns 0 m [].
Proof.
  split; [reflexivity|].
  rewrite (bind_silent _ _ _ _ (run_calls_spec cs m)). reflexivity.
Qed.

(** ** The function-list factory *)

(** C8.  [NvEncodeAPICreateInstance] returns 0 for every pointer, the
    null pointer included, and stores nothing: no event, and every byte
    of the structure it is handed (at any offset) is unchanged. *)
Theorem create_instance_fills_nothing (functionList : addr) (m : mem) :
  NvEncodeAPICreateInstance byval functionList m = Returns 0 m [] /\
  NvEncodeAPICreateInstance byval NULL m = Returns 0 m [] /\
  (exists m',
     memory_of (NvEncodeAPICreateInstance byval functionList m) = Some m' /\
     forall o : Z, m' !! (functionList + o) = m !! (functionList + o)).
Proof.
  split; [reflexivity|]. split; [reflexivity|].
  exists m. split; reflexivity.
Qed.

(** ** Concurrent callers *)

(** C9.  In an interleaving of any number of threads on one memory,
    under any schedule: no call performs a read, a write, a lock
    operation or a blocking operation (each call's trace is empty), the
    run as a whole leaves the memory as it was, and every call receives
    the status it receives when it runs alone on the initial memory. *)
Theorem concurrent_callers_do_not_interfere
    (sched : list nat) (ts : list (list (invocation byval)))
    (c : invocation byval) (m : mem) :
  (exists tr,
     trace_of (invoke c m) = Some tr /\
     existsb is_sync tr = false /\
     existsb is_read tr = false /\
     existsb is_write tr = false) /\
  (exists log,
     run_threads sched ts m = Returns log m [] /\
     Forall (fun e => invoke (snd (fst e)) m = Returns (snd e) m []) log /\
     Forall (fun e => snd e = 0) log).
Proof.
  split; [exists []; rewrite invoke_spec; repeat split|].
  destruct (run_threads_spec sched ts m) as (log & Hrun & Hlog).
  exists log. repeat split; try assumption.
  eapply Forall_impl; [exact Hlog|].
  intros e He. cbv beta in He. rewrite invoke_spec in He.
  now inversion He.
Qed.

(** ** The CUDA stream setter *)

(** C10.  [NvEncSetIOCudaStreams] is part of the surface although no
    entry of the interface enumeration names it; it returns 0 on every
    input and leaves memory, hence whatever its stream arguments
    designate, untouched. *)
Theorem set_io_cuda_streams_extra
    (encoder : addr)
    (inputStream outputStream : byval NV_ENC_CUSTREAM_PTR) (m : mem) :
  In sym_NvEncSetIOCudaStreams stub_surface /\
  forallb (fun e => negb (provides sym_NvEncSetIOCudaStreams e)) all_entries
    = true /\
  NvEncSetIOCudaStreams byval encoder inputStream outputStream m
    = Returns 0 m [] /\
  call (byval := byval) sym_NvEncSetIOCudaStreams
       (encoder, (inputStream, (outputStream, tt))) m
    = Returns 0 m [].
Proof.
  split; [apply surface_complete|]. split; [|split]; reflexivity.
Qed.

End Properties.

(** ** Memory accesses of a client *)

Lemma load8_ok (m : mem) (a b : Z) :
  a <> NULL -> m !! a = Some b -> load8 a m = Returns b m [EvRead a].
Proof.
  intros Ha Hb. unfold load8. rewrite Hb.
  destruct (decide (a = NULL)); [contradiction | reflexivity].
Qed.

Lemma store8_ok (m : mem) (a b b0 : Z) :
  a <> NULL -> m !! a = Some b0 ->
  store8 a b m = Returns tt (<[a := b mod 256]> m) [EvWrite a (b mod 256)].
Proof.
  intros Ha Hb. unfold store8. rewrite Hb.
  destruct (decide (a = NULL)); [contradiction | reflexivity].
Qed.

Lemma load8_returns (m : mem) (a : Z) :
  faulted (load8 a m) = false -> a <> NULL /\ is_Some (m !! a).
Proof.
  unfold load8. destruct (decide (a = NULL)); [discriminate|].
  destruct (m !! a) eqn:E; [eauto | discriminate].
Qed.

Lemma bind_faulted {A B} (c : C A) (k : A -> C B) (m : mem) :
  faulted (bind c k m) = false ->
  exists v m1 t1, c m = Returns v m1 t1 /\ faulted (k v m1) = false.
Proof.
  unfold bind. destruct (c m) as [v m1 t1|]; [|discriminate].
  intros H. exists v, m1, t1. split; [reflexivity|].
  now destruct (k v m1).
Qed.

(** A valid [uint32_t] pointer is non-null and has its four bytes
    mapped. *)
Lemma valid_u32_mapped (m : mem) (p : addr) :
  valid_u32 m p = true ->
  Forall (fun a => a <> NULL /\ is_Some (m !! a)) [p; p + 1; p + 2; p + 3].
Proof.
  unfold valid_u32, load_u32. intros H. apply negb_true_iff in H.
  destruct (bind_faulted _ _ _ H) as (b0 & m0 & t0 & E0 & H0).
  pose proof (load8_returns m p) as L0. rewrite E0 in L0.
  destruct (L0 eq_refl) as [N0 [x0 S0]].
  rewrite (load8_ok _ _ _ N0 S0) in E0. inversion E0; subst; clear E0.
  destruct (bind_faulted _ _ _ H0) as (b1 & m1 & t1 & E1 & H1).
  pose proof (load8_returns m0 (p + 1)) as L1. rewrite E1 in L1.
  destruct (L1 eq_refl) as [N1 [x1 S1]].
  rewrite (load8_ok _ _ _ N1 S1) in E1. inversion E1; subst; clear E1.
  destruct (bind_faulted _ _ _ H1) as (b2 & m2 & t2 & E2 & H2).
  pose proof (load8_returns m1 (p + 2)) as L2. rewrite E2 in L2.
  destruct (L2 eq_refl) as [N2 [x2 S2]].
  rewrite (load8_ok _ _ _ N2 S2) in E2. inversion E2; subst; clear E2.
  destruct (bind_faulted _ _ _ H2) as (b3 & m3 & t3 & E3 & H3).
  pose proof (load8_returns m2 (p + 3)) as L3. rewrite E3 in L3.
  destruct (L3 eq_refl) as [N3 [x3 S3]].
  repeat constructor; eauto.
Qed.

Lemma u32_bytes (v : Z) :
  0 <= v < 4294967296 ->
  v mod 256 + 256 * ((v / 256) mod 256 + 256 * ((v / 65536) mod 256
    + 256 * ((v / 16777216) mod 256))) = v.
Proof. intros Hv. Z.div_mod_to_equations. lia. Qed.

(** Storing a [uint32_t] through a valid pointer succeeds, and loading
    it back yields the value stored. *)
Lemma store_load_u32 (m : mem) (p : addr) (v : Z) :
  valid_u32 m p = true -> 0 <= v < 4294967296 ->
  exists m1 t1 t2,
    store_u32 p v m = Returns tt m1 t1 /\
    load_u32 p m1 = Returns v m1 t2.
Proof.
  intros Hp Hv. pose proof (valid_u32_mapped m p Hp) as F.
  inversion F as [|? ? [N0 [x0 S0]] F1]; subst.
  inversion F1 as [|? ? [N1 [x1 S1]] F2]; subst.
  inversion F2 as [|? ? [N2 [x2 S2]] F3]; subst.
  inversion F3 as [|? ? [N3 [x3 S3]] _]; subst.
  set (m1 := <[p := v mod 256]> m).
  set (m2 := <[p + 1 := (v / 256) mod 256]> m1).
  set (m3 := <[p + 2 := (v / 65536) mod 256]> m2).
  set (m4 := <[p + 3 := (v / 16777216) mod 256]> m3).
  assert (M1 : m1 !! (p + 1) = Some x1).
  { unfold m1. rewrite lookup_insert_ne by lia. exact S1. }
  assert (M2 : m2 !! (p + 2) = Some x2).
  { unfold m2, m1. rewrite !lookup_insert_ne by lia. exact S2. }
  assert (M3 : m3 !! (p + 3) = Some x3).
  { unfold m3, m2, m1. rewrite !lookup_insert_ne by lia. exact S3. }
  assert (L0 : m4 !! p = Some (v mod 256)).
  { unfold m4, m3, m2, m1. rewrite !lookup_insert_ne by lia.
    apply lookup_insert_eq. }
  assert (L1 : m4 !! (p + 1) = Some ((v / 256) mod 256)).
  { unfold m4, m3, m2. rewrite !lookup_insert_ne by lia.
    apply lookup_insert_eq. }
  assert (L2 : m4 !! (p + 2) = Some ((v / 65536) mod 256)).
  { unfold m4, m3. rewrite !lookup_insert_ne by lia.
    apply lookup_insert_eq. }
  assert (L3 : m4 !! (p + 3) = Some ((v / 16777216) mod 256)).
  { unfold m4. apply lookup_insert_eq. }
  exists m4. do 2 eexists. split.
  - unfold store_u32.
    rewrite (bind_returns _ _ _ _ _ _ (store8_ok m p v x0 N0 S0)).
    fold m1.
    rewrite (bind_returns _ _ _ _ _ _ (store8_ok m1 _ (v / 256) x1 N1 M1)).
    fold m2.
    rewrite (bind_returns _ _ _ _ _ _ (store8_ok m2 _ (v / 65536) x2 N2 M2)).
    fold m3.
    rewrite (store8_ok m3 _ (v / 16777216) x3 N3 M3).
    fold m4. reflexivity.
  - unfold load_u32.
    rewrite (bind_returns _ _ _ _ _ _ (load8_ok m4 _ _ N0 L0)).
    rewrite (bind_returns _ _ _ _ _ _ (load8_ok m4 _ _ N1 L1)).
    rewrite (bind_returns _ _ _ _ _ _ (load8_ok m4 _ _ N2 L2)).
    rewrite (bind_returns _ _ _ _ _ _ (load8_ok m4 _ _ N3 L3)).
    unfold ret. rewrite (u32_bytes v Hv). reflexivity.
Qed.

(** ** The GUID-count query *)

(** C6.  A caller stores a count [v] through a valid pointer, calls
    [NvEncGetEncodeGUIDCount] with a null encoder handle and that
    pointer, and reads the count back: the pointer is non-null, the
    status is 0, and the count read back is [v]; the call itself
    returns the memory it was given. *)
Theorem guid_count_null_handle_keeps_count
    (byval : hdr_name -> Type) (count : addr) (v : Z) (m : mem) :
  valid_u32 m count = true ->
  0 <= v < 4294967296 ->
  count <> NULL /\
  status_of (client_GUIDCount byval count v m) = Some (0, v) /\
  exists m1,
    memory_of (store_u32 count v m) = Some m1 /\
    NvEncGetEncodeGUIDCount byval NULL count m1 = Returns 0 m1 [] /\
    status_of (load_u32 count m1) = Some v.
Proof.
  intros Hp Hv.
  destruct (store_load_u32 m count v Hp Hv) as (m1 & t1 & t2 & Hs & Hl).
  split; [|split].
  - pose proof (valid_u32_mapped m count Hp) as F.
    inversion F as [|? ? [N0 _] _]. exact N0.
  - unfold client_GUIDCount.
    rewrite (bind_returns _ _ _ _ _ _ Hs).
    assert (Hc : NvEncGetEncodeGUIDCount byval NULL count m1
                 = Returns 0 m1 []) by reflexivity.
    rewrite (bind_returns _ _ _ _ _ _ Hc).
    rewrite (bind_returns _ _ _ _ _ _ Hl). reflexivity.
  - exists m1. rewrite Hs, Hl. repeat split.
Qed.

Lemma guid_count_null_handle_keeps_count_witness :
  valid_u32 sample_mem 4096 = true /\
  0 <= 7 < 4294967296 /\
  4096 <> NULL /\
  status_of (client_GUIDCount byval_bytes 4096 7 sample_mem) = Some (0, 7).
Proof.
  assert (Hp : valid_u32 sample_mem 4096 = true) by (vm_compute; reflexivity).
  assert (Hv : 0 <= 7 < 4294967296) by lia.
  split; [exact Hp|]. split; [exact Hv|].
  destruct (guid_count_null_handle_keeps_count byval_bytes 4096 7 sample_mem
              Hp Hv) as (Hn & Hc & _).
  split; [exact Hn | exact Hc].
Defined.

(** ** Coverage of the interface enumeration *)

Lemma provides_served (f : symbol) (e : api_entry) :
  provides f e = true -> entry_served e.
Proof.
  intros H. exists f. split; [apply surface_complete|]. split; [exact H|].
  intros byval a m. now rewrite call_spec.
Qed.

Lemma served_has_provider (e : api_entry) :
  entry_served e -> providers e <> [].
Proof.
  intros (f & Hin & Hp & _) Hnil.
  assert (Hf : f ∈ providers e).
  { unfold providers. apply list_elem_of_filter. split; [exact Hp|].
    apply list_elem_of_In. exact Hin. }
  rewrite Hnil in Hf. inversion Hf.
Qed.

(** C5, as stated, fails: the surface has no function for saving the
    encoder state.  No exported name carries the word "Save", no symbol
    serves the entry, and so the entry is not served. *)
Lemma no_encoder_state_save_function :
  forallb (fun f => negb (contains "Save" (symbol_name f))) stub_surface = true /\
  providers E_encoder_state_save = [] /\
  ~ (forall e : api_entry, entry_served e).
Proof.
  split; [reflexivity|]. split; [reflexivity|].
  intros H. apply (served_has_provider E_encoder_state_save (H _)).
  reflexivity.
Qed.

Lemma names_asked_cover :
  length names_asked = 42%nat /\
  NoDup names_asked /\
  forallb (fun n => bool_decide (length (exported_as n) = 1%nat)) names_asked
    = true /\
  filter (fun f => symbol_name f ∉ names_asked) stub_surface
    = [sym_NvEncSetIOCudaStreams].
Proof.
  split; [reflexivity|]. split; [|split; reflexivity].
  refine (bool_decide_unpack _ _). vm_compute. exact I.
Qed.

Lemma exported_linked (f : symbol) (name : string) :
  symbol_name f = name -> name_linked name.
Proof.
  intros H. exists f. split; [apply surface_complete|]. split; [exact H|].
  intros byval a m. now rewrite call_spec.
Qed.

(** Serving an entry name by name is the stronger notion: it implies
    that some symbol carries the entry's words. *)
Lemma served_in_full_served (e : api_entry) :
  entry_served_in_full e -> entry_served e.
Proof.
  intros [_ HF].
  destruct e; simpl in HF;
    inversion HF as [|? ? (f & Hin & Hname & Hok) _]; subst;
    exists f; (split; [exact Hin|]); (split; [|exact Hok]);
    unfold provides; rewrite Hname; reflexivity.
Qed.

Lemma not_all_served_in_full : ~ (forall e : api_entry, entry_served_in_full e).
Proof.
  intros H.
  apply (served_has_provider E_encoder_state_save
           (served_in_full_served _ (H _))).
  reflexivity.
Qed.

Ltac link_by_name :=
  match goal with
  | |- name_linked ?n =>
      let l := eval vm_compute in (exported_as n) in
      match l with
      | ?f :: _ => apply (exported_linked f); reflexivity
      end
  end.

(** C5, amended.  Every entry of the enumeration other than
    encoder-state save (restore included) is served in full: each
    exported name the entry stands for, matched exactly (so session
    open and open-ex, a configuration query and its extended variant,
    a count query and its list query are separate obligations), is the
    name of a function of the surface that returns 0 on every input. *)
Theorem enumerated_entries_served (e : api_entry) :
  e <> E_encoder_state_save ->
  entry_served_in_full e /\ entry_served e.
Proof.
  intros He.
  assert (Hfull : entry_served_in_full e).
  { destruct e; try congruence;
      (split; [discriminate|]); simpl;
      repeat (constructor; [link_by_name|]); constructor. }
  split; [exact Hfull | exact (served_in_full_served e Hfull)].
Qed.

Lemma enumerated_entries_served_witness :
  E_session_open <> E_encoder_state_save /\
  entry_served_in_full E_session_open /\
  entry_served E_session_open.
Proof.
  split; [discriminate|].
  apply (enumerated_entries_served E_session_open). discriminate.
Defined.

(** * Further properties of the stub file *)

(** ** Symbols *)

Lemma symbol_name_eqb_inj (f g : symbol) :
  String.eqb (symbol_name f) (symbol_name g) = true -> f = g.
Proof.
  destruct f; destruct g; vm_compute; intros H;
    first [reflexivity | discriminate H].
Qed.

(** X1.  The file defines no symbol twice: two functions of the surface
    with the same exported name are the same function. *)
Theorem symbol_name_injective (f g : symbol) :
  symbol_name f = symbol_name g -> f = g.
Proof.
  intros H. apply symbol_name_eqb_inj. rewrite H. apply String.eqb_refl.
Qed.

Lemma symbol_name_injective_witness :
  symbol_name sym_NvEncLockBitstream = symbol_name sym_NvEncLockBitstream /\
  sym_NvEncLockBitstream = sym_NvEncLockBitstream.
Proof.
  split; [reflexivity|].
  apply (symbol_name_injective sym_NvEncLockBitstream sym_NvEncLockBitstream).
  reflexivity.
Defined.

(** ** Calls inside client code *)

(** X2.  A stub call can be erased from any client computation: whatever
    the client does before it ([c]) and after it ([k], which may load,
    store or fault), the program with the call behaves exactly as the
    program that continues with status 0 instead, with the same result,
    memory, events and faults. *)
Theorem stub_call_erasable
    (byval : hdr_name -> Type) (A B : Type)
    (f : symbol) (a : args byval f)
    (c : C A) (k : A -> NVENCSTATUS -> C B) (m : mem) :
  bind c (fun x => bind (call f a) (k x)) m = bind c (fun x => k x 0) m.
Proof.
  unfold bind. destruct (c m) as [x m1 t1|]; [|reflexivity].
  rewrite call_spec. destruct (k x 0 m1); reflexivity.
Qed.

(** X3.  Any [uint32_t] object of the caller survives any call: a client
    that stores [v] through a valid pointer, calls any function of the
    surface with any arguments, and loads the object back gets status 0
    and [v].  So every count or version output reads back as the caller
    initialised it. *)
Theorem u32_object_survives_any_call
    (byval : hdr_name -> Type) (f : symbol) (a : args byval f)
    (p : addr) (v : Z) (m : mem) :
  valid_u32 m p = true ->
  0 <= v < 4294967296 ->
  status_of (client_u32 f a p v m) = Some (0, v).
Proof.
  intros Hp Hv.
  destruct (store_load_u32 m p v Hp Hv) as (m1 & t1 & t2 & Hs & Hl).
  unfold client_u32.
  rewrite (bind_returns _ _ _ _ _ _ Hs).
  rewrite (bind_returns _ _ _ _ _ _ (call_spec byval f a m1)).
  rewrite (bind_returns _ _ _ _ _ _ Hl). reflexivity.
Qed.

Lemma u32_object_survives_any_call_witness :
  valid_u32 sample_mem 4096 = true /\
  0 <= 12 < 4294967296 /\
  status_of
    (client_u32 (byval := byval_bytes)
       sym_NvEncodeAPIGetMaxSupportedVersion (4096, tt) 4096 12 sample_mem)
    = Some (0, 12).
Proof.
  assert (Hp : valid_u32 sample_mem 4096 = true) by (vm_compute; reflexivity).
  assert (Hv : 0 <= 12 < 4294967296) by lia.
  split; [exact Hp|]. split; [exact Hv|].
  exact (u32_object_survives_any_call byval_bytes
           sym_NvEncodeAPIGetMaxSupportedVersion (4096, tt) 4096 12
           sample_mem Hp Hv).
Defined.

(** ** Signatures *)



(** X5.  No function is nullary and none takes more than five
    parameters; the first parameter of every function is a pointer, so
    every call carries at least one pointer argument. *)
Theorem every_signature_leads_with_pointer
    (byval : hdr_name -> Type) (f : symbol) (a : args byval f) :
  (1 <= length (params f) <= 5)%nat /\
  is_pointer <$> head (params f) = Some true /\
  pointer_args (params f) a <> [].
Proof.
  destruct f; simpl; repeat split; try lia; discriminate.
Qed.
